(** * The AWS Bedrock Claude adapter of phidata ([phi/llm/aws/claude.py])

    A shallow embedding of the class [Claude]: parameter validation at
    construction, the derivation of the request parameters, the
    construction of the request body and the parsing of responses and of
    streaming fragments.

    Python values are embedded as the inductive [pyval]; a [dict] with
    string keys is a [gmap string pyval] (Python compares dicts without
    regard to insertion order, so the extensional equality of [gmap] is the
    one of the source); a raised exception is the [Raise] branch of
    [result]. *)

From Stdlib Require Import QArith.
From stdpp Require Import gmap strings list fin_maps.

Set Warnings "-register-all".

Open Scope string_scope.

(** ** Python values *)

(** A Python [float].  Every finite double is a rational number and the
    source only compares floats with the integers 0, 1 and 500, so a finite
    float is carried by the rational it denotes (both zeros denote [0]);
    the infinities and NaN are separate constructors. *)
Inductive pyfloat : Type :=
| FFin (q : Q)
| FInf (negative : bool)
| FNaN.

Inductive pyval : Type :=
| VNone
| VBool (b : bool)
| VInt (z : Z)
| VFloat (f : pyfloat)
| VStr (s : string)
| VList (l : list pyval)
| VDict (d : gmap string pyval).

(** Exceptions the modelled code can raise. *)
Inductive exn : Type :=
| AssertionError (msg : string)
| AttributeError
| TypeError.

Inductive result (A : Type) : Type :=
| Ok (a : A)
| Raise (e : exn).
Arguments Ok {A} a.
Arguments Raise {A} e.

#[global] Instance result_ret : MRet result := fun A a => Ok a.
#[global] Instance result_bind : MBind result := fun A B f r =>
  match r with
  | Ok a => f a
  | Raise e => Raise e
  end.

(** [assert cond, msg] *)
Definition py_assert (cond : bool) (msg : string) : result unit :=
  if cond then Ok tt else Raise (AssertionError msg).

(** *** Truthiness ([bool(x)], as tested by [if x:]) *)

Definition float_truthy (f : pyfloat) : bool :=
  match f with
  | FFin q => negb (Qeq_bool q (inject_Z 0))
  | FInf _ => true
  | FNaN => true
  end.

Definition dict_truthy (d : gmap string pyval) : bool :=
  bool_decide (dom d ≠ ∅).

Definition truthy (v : pyval) : bool :=
  match v with
  | VNone => false
  | VBool b => b
  | VInt z => negb (z =? 0)%Z
  | VFloat f => float_truthy f
  | VStr s => negb (String.eqb s "")
  | VList l => match l with [] => false | _ :: _ => true end
  | VDict d => dict_truthy d
  end.

(** Truthiness of an [Optional[...]] attribute: [None] is falsy. *)
Definition opt_truthy {A : Type} (t : A → bool) (o : option A) : bool :=
  match o with
  | None => false
  | Some a => t a
  end.

Definition int_truthy (z : Z) : bool := negb (z =? 0)%Z.

Definition list_truthy {A : Type} (l : list A) : bool :=
  match l with [] => false | _ :: _ => true end.

(** *** Comparisons of a float with an integer constant *)

(** [z <= f] *)
Definition int_le_float (z : Z) (f : pyfloat) : bool :=
  match f with
  | FFin q => Qle_bool (inject_Z z) q
  | FInf negative => negb negative
  | FNaN => false
  end.

(** [f <= z] *)
Definition float_le_int (f : pyfloat) (z : Z) : bool :=
  match f with
  | FFin q => Qle_bool q (inject_Z z)
  | FInf negative => negative
  | FNaN => false
  end.

(** *** Dictionaries and attribute access *)

(** [d.get(k)] *)
Definition dict_get (d : gmap string pyval) (k : string) : pyval :=
  default VNone (d !! k).

(** [d.get(k, dflt)] *)
Definition dict_get_default (d : gmap string pyval) (k : string)
    (dflt : pyval) : pyval :=
  default dflt (d !! k).

(** [k in d] *)
Definition dict_contains (d : gmap string pyval) (k : string) : bool :=
  match d !! k with
  | Some _ => true
  | None => false
  end.

(** [v.get(k)] on an arbitrary value: among the values of [pyval] only a
    dict has a [get] method; on every other value the attribute lookup
    raises [AttributeError]. *)
Definition py_get (v : pyval) (k : string) : result pyval :=
  match v with
  | VDict d => Ok (dict_get d k)
  | _ => Raise AttributeError
  end.

(** [v == s] for a string literal [s]: only an equal [str] compares equal. *)
Definition py_eq_str (v : pyval) (s : string) : bool :=
  match v with
  | VStr t => String.eqb t s
  | _ => false
  end.

(** The line feed, ["\n"]. *)
Definition LF : string := String (Ascii.ascii_of_nat 10) "".

(** The items of [sep.join(items)] must all be [str]; the first one that is
    not raises [TypeError]. *)
Fixpoint str_items (items : list pyval) : result (list string) :=
  match items with
  | [] => Ok []
  | VStr s :: rest =>
      match str_items rest with
      | Ok ss => Ok (s :: ss)
      | Raise e => Raise e
      end
  | _ :: _ => Raise TypeError
  end.

(** [sep.join(items)] *)
Definition py_join (sep : string) (items : list pyval) : result pyval :=
  ss ← str_items items; mret (VStr (String.concat sep ss)).

(** [repr] of a [str] made of printable ASCII characters other than the
    quote and the backslash: the string between single quotes.  [plain]
    recognises these strings. *)
Definition plain_char (c : Ascii.ascii) : bool :=
  let n := Ascii.nat_of_ascii c in
  (32 <=? n)%nat && (n <? 127)%nat && negb (n =? 39)%nat && negb (n =? 92)%nat.

Fixpoint plain (s : string) : bool :=
  match s with
  | EmptyString => true
  | String c rest => plain_char c && plain rest
  end.

Definition repr_str (s : string) : string := "'" ++ s ++ "'".

(** [repr] of a list of such strings, as an f-string prints it. *)
Definition repr_str_list (l : list string) : string :=
  "[" ++ String.concat ", " (map repr_str l) ++ "]".

(** ** Messages *)

(** Modelled from the spec: the class [Message] of [phi.llm.message] is
    imported, not defined, by the source.  The spec describes a conversation
    message as a role tag plus content; the adapter only reads and sets the
    attributes [role] and [content], both kept as arbitrary values, and
    building a message performs no check. *)
Record Message : Type := mkMessage {
  role : pyval;
  content : pyval;
}.

(** ** The adapter *)

Record Claude : Type := mkClaude {
  name : string;
  model : string;
  max_tokens : Z;
  temperature : option pyfloat;
  top_p : option pyfloat;
  top_k : option Z;
  stop_sequences : option (list string);
  anthropic_version : string;
  request_params : option (gmap string pyval);
  client_params : option (gmap string pyval);
}.

Definition ALLOWED_CLAUDE_IDS : list string :=
  [ "anthropic.claude-3-sonnet-20240229-v1:0";
    "anthropic.claude-3-opus-20240229-v1:0";
    "anthropic.claude-3-haiku-20240307-v1:0" ].

(** [x in l] on a list of strings *)
Definition str_in (x : string) (l : list string) : bool :=
  existsb (String.eqb x) l.

Definition model_id_message (m : string) : string :=
  "When using AWS Claude messaging API, you should choose from this list: "
  ++ repr_str_list ALLOWED_CLAUDE_IDS ++ LF ++ "You passed " ++ m.

Definition check_model_id (self : Claude) : result unit :=
  py_assert (str_in (model self) ALLOWED_CLAUDE_IDS)
            (model_id_message (model self)).

Definition temperature_message : string := "temperature must be between 0 and 1.".
Definition top_p_message : string := "top_p must be between 0 and 1.".
Definition top_k_message : string := "top_k must be between 0 and 500.".

(** [0 <= f <= hi] *)
Definition float_in_range (f : pyfloat) (hi : Z) : bool :=
  int_le_float 0 f && float_le_int f hi.

(** [0 <= k <= hi] *)
Definition int_in_range (k hi : Z) : bool :=
  (0 <=? k)%Z && (k <=? hi)%Z.

(** One [if x: assert lo <= x <= hi, msg] statement. *)
Definition check_one {A : Type} (t : A → bool) (inside : A → bool)
    (msg : string) (o : option A) : result unit :=
  match o with
  | Some a => if t a then py_assert (inside a) msg else Ok tt
  | None => Ok tt
  end.

Definition check_hyperparameters (self : Claude) : result unit :=
  _ ← check_one float_truthy (λ t, float_in_range t 1)
        temperature_message (temperature self);
  _ ← check_one float_truthy (λ p, float_in_range p 1)
        top_p_message (top_p self);
  check_one int_truthy (λ k, int_in_range k 500)
        top_k_message (top_k self).

(** The keyword arguments of the constructor are the attributes it stores,
    so they are passed as a [Claude] record; [default_args] holds the
    defaults of the signature. *)
Definition default_args : Claude := {|
  name := "AwsBedrockAnthropicClaude";
  model := "anthropic.claude-3-sonnet-20240229-v1:0";
  max_tokens := 8192;
  temperature := None;
  top_p := None;
  top_k := None;
  stop_sequences := None;
  anthropic_version := "bedrock-2023-05-31";
  request_params := None;
  client_params := None;
|}.

(** The constructor: the attributes are stored, then validated. *)
Definition __init__ (args : Claude) : result Claude :=
  let self := args in
  _ ← check_model_id self;
  _ ← check_hyperparameters self;
  mret self.

(** [d[k] = v] when the optional attribute is truthy. *)
Definition set_if {A : Type} (t : A → bool) (inj : A → pyval) (k : string)
    (o : option A) (d : gmap string pyval) : gmap string pyval :=
  match o with
  | Some a => if t a then <[k := inj a]> d else d
  | None => d
  end.

(** [d.update(other)]: the keys of [other] win. *)
Definition dict_update (d other : gmap string pyval) : gmap string pyval :=
  other ∪ d.

(** The request parameters computed before the extension mapping is merged. *)
Definition computed_params (self : Claude) : gmap string pyval :=
  let p : gmap string pyval :=
    <["anthropic_version" := VStr (anthropic_version self)]>
      (<["max_tokens" := VInt (max_tokens self)]> ∅) in
  let p := set_if float_truthy VFloat "temperature" (temperature self) p in
  let p := set_if float_truthy VFloat "top_p" (top_p self) p in
  let p := set_if int_truthy VInt "top_k" (top_k self) p in
  set_if list_truthy (λ l, VList (VStr <$> l)) "stop_sequences"
         (stop_sequences self) p.

Definition api_kwargs (self : Claude) : gmap string pyval :=
  let p := computed_params self in
  match request_params self with
  | Some rp => if dict_truthy rp then dict_update p rp else p
  | None => p
  end.

(** The state of the loop of [get_request_body]: [system_prompt] and
    [messages_for_api]. *)
Definition scan_step (st : pyval * list pyval) (m : Message)
    : pyval * list pyval :=
  let '(system_prompt, messages_for_api) := st in
  if py_eq_str (role m) "system"
  then (content m, messages_for_api)
  else (system_prompt,
        (messages_for_api ++
           [VDict (<["content" := content m]> (<["role" := role m]> ∅))])%list).

Definition scan (messages : list Message) : pyval * list pyval :=
  fold_left scan_step messages (VNone, []).

Definition get_request_body (self : Claude) (messages : list Message)
    : gmap string pyval :=
  let '(system_prompt, messages_for_api) := scan messages in
  let request_body :=
    dict_update (<["messages" := VList messages_for_api]> ∅) (api_kwargs self) in
  if truthy system_prompt
  then <["system" := system_prompt]> request_body
  else request_body.

(** The list comprehension [[c.get("text") for c in _content]]. *)
Definition texts_of (items : list pyval) : result (list pyval) :=
  mapM (λ c, py_get c "text") items.

Definition parse_response_message (self : Claude)
    (response : gmap string pyval) : result Message :=
  if py_eq_str (dict_get response "type") "message" then
    let response_role := dict_get response "role" in
    content ←
      (if truthy (dict_get response "content") then
         match dict_get response "content" with
         | VStr s => Ok (VStr s)
         | VDict d => Ok (dict_get_default d "text" (VStr ""))
         | VList l => ts ← texts_of l; py_join LF ts
         | _ => Ok (VStr "")
         end
       else Ok (VStr ""));
    mret (mkMessage response_role content)
  else
    Ok (mkMessage (VStr "assistant") (dict_get response "completion")).

Definition parse_response_delta (self : Claude)
    (response : gmap string pyval) : result pyval :=
  if dict_contains response "delta"
  then py_get (dict_get_default response "delta" (VDict ∅)) "text"
  else Ok (dict_get response "completion").

(** [to_dict].  The dictionary returned by [super().to_dict()] comes from the
    base class [AwsBedrock], which the source imports; it is the parameter
    [super_to_dict].  An absent attribute is stored as [None]. *)
Definition opt_val {A : Type} (inj : A → pyval) (o : option A) : pyval :=
  match o with
  | Some a => inj a
  | None => VNone
  end.

Definition to_dict (super_to_dict : gmap string pyval) (self : Claude)
    : gmap string pyval :=
  let d := super_to_dict in
  let d := <["max_tokens" := VInt (max_tokens self)]> d in
  let d := <["temperature" := opt_val VFloat (temperature self)]> d in
  let d := <["top_p" := opt_val VFloat (top_p self)]> d in
  let d := <["top_k" := opt_val VInt (top_k self)]> d in
  <["stop_sequences" :=
      opt_val (λ l, VList (VStr <$> l)) (stop_sequences self)]> d.

(** ** Vocabulary of the statements *)

(** [s] occurs in [t]. *)
Definition occurs_in (s t : string) : Prop :=
  ∃ pre post : string, t = pre ++ s ++ post.

(** A float that is not zero (the infinities and NaN are not zero). *)
Definition float_nonzero (f : pyfloat) : Prop :=
  match f with
  | FFin q => ¬ (q == 0)%Q
  | FInf _ | FNaN => True
  end.

(** A float inside the closed interval from 0 to [hi]. *)
Definition float_within (f : pyfloat) (hi : Z) : Prop :=
  match f with
  | FFin q => (0 <= q)%Q ∧ (q <= inject_Z hi)%Q
  | FInf _ | FNaN => False
  end.

(** An optional float that construction accepts: absent, zero or inside
    the interval. *)
Definition float_accepted (o : option pyfloat) (hi : Z) : Prop :=
  match o with
  | None => True
  | Some f => ¬ float_nonzero f ∨ float_within f hi
  end.

Definition int_accepted (o : option Z) (hi : Z) : Prop :=
  match o with
  | None => True
  | Some k => k = 0%Z ∨ (0 ≤ k ≤ hi)%Z
  end.

(** A float attribute that is present, not zero and outside the interval. *)
Definition float_rejected (o : option pyfloat) (hi : Z) : Prop :=
  ∃ f, o = Some f ∧ float_nonzero f ∧ ¬ float_within f hi.

Definition int_rejected (o : option Z) (hi : Z) : Prop :=
  ∃ k, o = Some k ∧ k ≠ 0%Z ∧ ¬ (0 ≤ k ≤ hi)%Z.

(** The value of an optional attribute when it is present and truthy. *)
Definition kept {A : Type} (t : A → bool) (o : option A) : option A :=
  match o with
  | Some a => if t a then Some a else None
  | None => None
  end.

(** The keys the derivation can compute. *)
Definition computed_keys : list string :=
  [ "max_tokens"; "anthropic_version"; "temperature"; "top_p"; "top_k";
    "stop_sequences" ].

(** A system message, as the scan of [get_request_body] tests it. *)
Definition is_system (m : Message) : bool := py_eq_str (role m) "system".

(** The [{role, content}] pair sent for a message. *)
Definition role_content_pair (m : Message) : pyval :=
  VDict {[ "role" := role m; "content" := content m ]}.

(** The messages that are not system messages, in their original order. *)
Definition non_system (messages : list Message) : list Message :=
  List.filter (λ m, negb (is_system m)) messages.

(** The content of the last system message, if there is one. *)
Definition last_system_content (messages : list Message) : option pyval :=
  content <$> last (List.filter is_system messages).

(** The request body before the [system] field is considered. *)
Definition merged_body (self : Claude) (messages : list Message)
    : gmap string pyval :=
  api_kwargs self
    ∪ {[ "messages" := VList (role_content_pair <$> non_system messages) ]}.

(** A content element carrying the text [t]: an object whose [text] field
    is the string [t]. *)
Definition has_text (c : pyval) (t : string) : Prop :=
  ∃ d : gmap string pyval, c = VDict d ∧ d !! "text" = Some (VStr t).

(** A [content] field that is missing or is neither a string, an object nor
    a list. *)
Definition other_shape (o : option pyval) : Prop :=
  match o with
  | None | Some VNone | Some (VBool _) | Some (VInt _) | Some (VFloat _) => True
  | Some (VStr _) | Some (VList _) | Some (VDict _) => False
  end.

(** An optional float that is absent or inside the closed interval. *)
Definition float_absent_or_within (o : option pyfloat) (hi : Z) : Prop :=
  match o with
  | None => True
  | Some f => float_within f hi
  end.

Definition int_absent_or_within (o : option Z) (hi : Z) : Prop :=
  match o with
  | None => True
  | Some k => (0 ≤ k ≤ hi)%Z
  end.

(** A value that is an object. *)
Definition is_object (v : pyval) : Prop := ∃ d : gmap string pyval, v = VDict d.

(** An object whose [text] entry, if any, is not a string. *)
Definition text_not_str (v : pyval) : Prop :=
  ∃ d : gmap string pyval, v = VDict d ∧ ∀ t : string, d !! "text" ≠ Some (VStr t).

(** What [c.get("text")] yields for an object [c]. *)
Definition text_or_none (c : pyval) : pyval :=
  match c with
  | VDict d => dict_get d "text"
  | _ => VNone
  end.

(** A value that is not a string. *)
Definition not_str (v : pyval) : Prop := ∀ t : string, v ≠ VStr t.

(** ** Auxiliary facts *)

Lemma string_app_empty_r (s : string) : s ++ "" = s.
Proof.
  induction s as [|c s IH]; [done|].
  change (String c (s ++ "") = String c s). by rewrite IH.
Qed.

Lemma str_in_elem_of (x : string) (l : list string) :
  str_in x l = true ↔ x ∈ l.
Proof.
  unfold str_in. rewrite existsb_exists. split.
  - intros (y & Hy & Heq). apply String.eqb_eq in Heq as ->.
    by apply list_elem_of_In.
  - intros Hx. exists x. split; [by apply list_elem_of_In | apply String.eqb_refl].
Qed.

Lemma float_truthy_nonzero (f : pyfloat) :
  float_truthy f = true ↔ float_nonzero f.
Proof.
  destruct f as [q| |]; simpl; [|done..].
  rewrite negb_true_iff. split.
  - intros Hb Hq. apply Qeq_bool_iff in Hq. unfold inject_Z in Hb. congruence.
  - intros Hq. destruct (Qeq_bool q (inject_Z 0)) eqn:Hb; [|done].
    apply Qeq_bool_iff in Hb. by destruct Hq.
Qed.

Lemma float_in_range_within (f : pyfloat) (hi : Z) :
  float_in_range f hi = true ↔ float_within f hi.
Proof.
  unfold float_in_range. destruct f as [q|b|]; simpl.
  - rewrite andb_true_iff, !Qle_bool_iff. done.
  - destruct b; simpl; intuition congruence.
  - intuition congruence.
Qed.

Lemma int_in_range_within (k hi : Z) :
  int_in_range k hi = true ↔ (0 ≤ k ≤ hi)%Z.
Proof. unfold int_in_range. rewrite andb_true_iff, !Z.leb_le. done. Qed.

Lemma int_truthy_nonzero (k : Z) : int_truthy k = true ↔ k ≠ 0%Z.
Proof. unfold int_truthy. rewrite negb_true_iff, Z.eqb_neq. done. Qed.

Lemma check_float_accepted (o : option pyfloat) (hi : Z) (msg : string) :
  float_accepted o hi →
  check_one float_truthy (λ t, float_in_range t hi) msg o = Ok tt.
Proof.
  destruct o as [f|]; simpl; [|done]. intros Hacc.
  destruct (float_truthy f) eqn:Ht; [|done].
  apply float_truthy_nonzero in Ht. destruct Hacc as [Hz|Hin]; [done|].
  apply float_in_range_within in Hin. by rewrite Hin.
Qed.

Lemma check_float_rejected (o : option pyfloat) (hi : Z) (msg : string) :
  float_rejected o hi →
  check_one float_truthy (λ t, float_in_range t hi) msg o
  = Raise (AssertionError msg).
Proof.
  intros (f & -> & Hnz & Hout). simpl.
  apply float_truthy_nonzero in Hnz. rewrite Hnz.
  destruct (float_in_range f hi) eqn:Hin; [|done].
  apply float_in_range_within in Hin. done.
Qed.

Lemma check_int_accepted (o : option Z) (hi : Z) (msg : string) :
  int_accepted o hi →
  check_one int_truthy (λ k, int_in_range k hi) msg o = Ok tt.
Proof.
  destruct o as [k|]; simpl; [|done]. intros Hacc.
  destruct (int_truthy k) eqn:Ht; [|done].
  apply int_truthy_nonzero in Ht. destruct Hacc as [Hz|Hin]; [done|].
  apply int_in_range_within in Hin. by rewrite Hin.
Qed.

Lemma check_int_rejected (o : option Z) (hi : Z) (msg : string) :
  int_rejected o hi →
  check_one int_truthy (λ k, int_in_range k hi) msg o
  = Raise (AssertionError msg).
Proof.
  intros (k & -> & Hnz & Hout). simpl.
  apply int_truthy_nonzero in Hnz. rewrite Hnz.
  destruct (int_in_range k hi) eqn:Hin; [|done].
  apply int_in_range_within in Hin. done.
Qed.

(** One check either passes or raises its own message. *)
Lemma check_one_cases {A : Type} (t inside : A → bool) (msg : string)
    (o : option A) :
  check_one t inside msg o = Ok tt
  ∨ check_one t inside msg o = Raise (AssertionError msg).
Proof.
  destruct o as [a|]; simpl; [|by left].
  destruct (t a); [|by left]. destruct (inside a); simpl; auto.
Qed.

(** The allow-list holds plain strings only, so [repr_str] prints each of
    its members as Python does. *)
Lemma ALLOWED_CLAUDE_IDS_plain : forallb plain ALLOWED_CLAUDE_IDS = true.
Proof. reflexivity. Qed.

(** ** Construction: model validation *)

Lemma check_model_id_allowed (self : Claude) :
  model self ∈ ALLOWED_CLAUDE_IDS → check_model_id self = Ok tt.
Proof.
  intros Hin. apply str_in_elem_of in Hin.
  unfold check_model_id. by rewrite Hin.
Qed.

Lemma check_model_id_refused (self : Claude) :
  model self ∉ ALLOWED_CLAUDE_IDS →
  check_model_id self = Raise (AssertionError (model_id_message (model self))).
Proof.
  intros Hout. unfold check_model_id.
  destruct (str_in (model self) ALLOWED_CLAUDE_IDS) eqn:Hin; [|done].
  by apply str_in_elem_of in Hin.
Qed.

(** C5: a model identifier outside the allow-list makes construction fail
    with the assertion error of [check_model_id], whose message contains the
    offending identifier, the printed allow-list and so each allowed
    identifier; for an identifier of the allow-list the model check passes. *)
Theorem check_model_id_allow_list (args : Claude) :
  (model args ∉ ALLOWED_CLAUDE_IDS →
     ∃ msg : string,
       __init__ args = Raise (AssertionError msg)
       ∧ check_model_id args = Raise (AssertionError msg)
       ∧ occurs_in (model args) msg
       ∧ occurs_in (repr_str_list ALLOWED_CLAUDE_IDS) msg
       ∧ ∀ id : string, id ∈ ALLOWED_CLAUDE_IDS → occurs_in id msg)
  ∧ (model args ∈ ALLOWED_CLAUDE_IDS → check_model_id args = Ok tt).
Proof.
  split; [|apply check_model_id_allowed].
  intros Hout. exists (model_id_message (model args)).
  pose proof (check_model_id_refused args Hout) as Hchk.
  split; [unfold __init__; by rewrite Hchk|].
  split; [done|].
  set (head := "When using AWS Claude messaging API, you should choose from this list: ").
  set (m := model args).
  split; [|split].
  - exists (head ++ repr_str_list ALLOWED_CLAUDE_IDS ++ LF ++ "You passed "), "".
    by rewrite string_app_empty_r.
  - by exists head, (LF ++ "You passed " ++ m).
  - intros id Hid. unfold ALLOWED_CLAUDE_IDS in Hid.
    rewrite !elem_of_cons, elem_of_nil in Hid.
    destruct Hid as [->|[->|[->|[]]]].
    + by exists (head ++ "['"),
        ("', 'anthropic.claude-3-opus-20240229-v1:0', 'anthropic.claude-3-haiku-20240307-v1:0']"
         ++ LF ++ "You passed " ++ m).
    + by exists (head ++ "['anthropic.claude-3-sonnet-20240229-v1:0', '"),
        ("', 'anthropic.claude-3-haiku-20240307-v1:0']" ++ LF ++ "You passed " ++ m).
    + by exists (head ++ "['anthropic.claude-3-sonnet-20240229-v1:0', 'anthropic.claude-3-opus-20240229-v1:0', '"),
        ("']" ++ LF ++ "You passed " ++ m).
Qed.

Lemma check_model_id_allow_list_witness :
  (∃ msg : string,
     __init__ {| name := "n"; model := "anthropic.claude-v2"; max_tokens := 8192;
                 temperature := None; top_p := None; top_k := None;
                 stop_sequences := None; anthropic_version := "bedrock-2023-05-31";
                 request_params := None; client_params := None |}
     = Raise (AssertionError msg)
     ∧ occurs_in "anthropic.claude-v2" msg)
  ∧ check_model_id default_args = Ok tt.
Proof.
  split.
  - destruct (check_model_id_allow_list
                {| name := "n"; model := "anthropic.claude-v2"; max_tokens := 8192;
                   temperature := None; top_p := None; top_k := None;
                   stop_sequences := None; anthropic_version := "bedrock-2023-05-31";
                   request_params := None; client_params := None |})
      as [Hbad _].
    destruct Hbad as (msg & Hinit & _ & Hocc & _).
    + simpl. intros Hin. apply str_in_elem_of in Hin. discriminate Hin.
    + exists msg. split; [exact Hinit | exact Hocc].
  - destruct (check_model_id_allow_list default_args) as [_ Hgood].
    apply Hgood. apply str_in_elem_of. reflexivity.
Defined.

(** ** Construction: hyperparameter validation *)

Lemma check_hyperparameters_temperature (self : Claude) :
  float_rejected (temperature self) 1 →
  check_hyperparameters self = Raise (AssertionError temperature_message).
Proof.
  intros Hrej. unfold check_hyperparameters.
  by rewrite (check_float_rejected _ _ _ Hrej).
Qed.

Lemma check_hyperparameters_top_p (self : Claude) :
  float_accepted (temperature self) 1 →
  float_rejected (top_p self) 1 →
  check_hyperparameters self = Raise (AssertionError top_p_message).
Proof.
  intros Hacc Hrej. unfold check_hyperparameters.
  rewrite (check_float_accepted _ _ _ Hacc). simpl.
  by rewrite (check_float_rejected _ _ _ Hrej).
Qed.

Lemma check_hyperparameters_top_k (self : Claude) :
  float_accepted (temperature self) 1 →
  float_accepted (top_p self) 1 →
  int_rejected (top_k self) 500 →
  check_hyperparameters self = Raise (AssertionError top_k_message).
Proof.
  intros Hacc1 Hacc2 Hrej. unfold check_hyperparameters.
  rewrite (check_float_accepted _ _ _ Hacc1). simpl.
  rewrite (check_float_accepted _ _ _ Hacc2). simpl.
  by rewrite (check_int_rejected _ _ _ Hrej).
Qed.

Lemma check_hyperparameters_accepted (self : Claude) :
  float_accepted (temperature self) 1 →
  float_accepted (top_p self) 1 →
  int_accepted (top_k self) 500 →
  check_hyperparameters self = Ok tt.
Proof.
  intros Hacc1 Hacc2 Hacc3. unfold check_hyperparameters.
  rewrite (check_float_accepted _ _ _ Hacc1). simpl.
  rewrite (check_float_accepted _ _ _ Hacc2). simpl.
  by apply check_int_accepted.
Qed.

(** Whatever precedes it, a rejected hyperparameter makes the validation
    raise one of the three range messages. *)
Lemma check_hyperparameters_rejected (self : Claude) :
  float_rejected (temperature self) 1
  ∨ float_rejected (top_p self) 1
  ∨ int_rejected (top_k self) 500 →
  ∃ msg : string,
    msg ∈ [temperature_message; top_p_message; top_k_message]
    ∧ check_hyperparameters self = Raise (AssertionError msg).
Proof.
  intros Hrej. unfold check_hyperparameters.
  destruct (check_one_cases float_truthy (λ t, float_in_range t 1)
              temperature_message (temperature self)) as [Ht|Ht];
    rewrite Ht; simpl;
    [|exists temperature_message; split; [repeat constructor | done]].
  destruct (check_one_cases float_truthy (λ p, float_in_range p 1)
              top_p_message (top_p self)) as [Hp|Hp];
    rewrite Hp; simpl;
    [|exists top_p_message; split; [repeat constructor | done]].
  destruct Hrej as [Hrej|[Hrej|Hrej]].
  - rewrite (check_float_rejected _ _ temperature_message Hrej) in Ht. done.
  - rewrite (check_float_rejected _ _ top_p_message Hrej) in Hp. done.
  - exists top_k_message. split; [repeat constructor|].
    by apply check_int_rejected.
Qed.

(** C4: a temperature, top_p or top_k that is present, not zero and outside
    its closed range ([0,1], [0,1], [0,500]) makes the validation, and so
    construction, fail with an assertion error carrying a range message (the
    one of the first offending field, in the order temperature, top_p,
    top_k); a value that is absent, exactly zero or inside its range is
    accepted, and construction with an allowed model succeeds. *)
Theorem check_hyperparameters_ranges (args : Claude) :
  (float_rejected (temperature args) 1
   ∨ float_rejected (top_p args) 1
   ∨ int_rejected (top_k args) 500 →
     ∃ msg : string,
       msg ∈ [temperature_message; top_p_message; top_k_message]
       ∧ check_hyperparameters args = Raise (AssertionError msg)
       ∧ (model args ∈ ALLOWED_CLAUDE_IDS →
            __init__ args = Raise (AssertionError msg))
       ∧ ∃ e : exn, __init__ args = Raise e)
  ∧ (float_rejected (temperature args) 1 →
       check_hyperparameters args = Raise (AssertionError temperature_message))
  ∧ (float_accepted (temperature args) 1 → float_rejected (top_p args) 1 →
       check_hyperparameters args = Raise (AssertionError top_p_message))
  ∧ (float_accepted (temperature args) 1 → float_accepted (top_p args) 1 →
     int_rejected (top_k args) 500 →
       check_hyperparameters args = Raise (AssertionError top_k_message))
  ∧ (model args ∈ ALLOWED_CLAUDE_IDS →
     float_accepted (temperature args) 1 →
     float_accepted (top_p args) 1 →
     int_accepted (top_k args) 500 →
       check_hyperparameters args = Ok tt ∧ __init__ args = Ok args).
Proof.
  split; [|split; [|split; [|split]]].
  - intros Hrej.
    destruct (check_hyperparameters_rejected args Hrej) as (msg & Hmsg & Hchk).
    exists msg. split; [done|]. split; [done|]. split.
    + intros Hin. unfold __init__.
      rewrite (check_model_id_allowed args Hin). simpl. by rewrite Hchk.
    + unfold __init__, check_model_id.
      destruct (str_in (model args) ALLOWED_CLAUDE_IDS); simpl; [|by eexists].
      rewrite Hchk. by eexists.
  - apply check_hyperparameters_temperature.
  - apply check_hyperparameters_top_p.
  - apply check_hyperparameters_top_k.
  - intros Hin Hacc1 Hacc2 Hacc3.
    pose proof (check_hyperparameters_accepted args Hacc1 Hacc2 Hacc3) as Hchk.
    split; [done|]. unfold __init__.
    rewrite (check_model_id_allowed args Hin). simpl. by rewrite Hchk.
Qed.

Lemma check_hyperparameters_ranges_witness :
  (∃ msg : string,
     __init__ {| name := "n"; model := "anthropic.claude-3-opus-20240229-v1:0";
                 max_tokens := 8192;
                 temperature := Some (FFin (3 # 2)); top_p := None;
                 top_k := Some 501%Z;
                 stop_sequences := None; anthropic_version := "bedrock-2023-05-31";
                 request_params := None; client_params := None |}
     = Raise (AssertionError msg))
  ∧ __init__ {| name := "n"; model := "anthropic.claude-3-opus-20240229-v1:0";
                max_tokens := 8192;
                temperature := Some (FFin 0); top_p := Some (FFin 0);
                top_k := Some 0%Z;
                stop_sequences := None; anthropic_version := "bedrock-2023-05-31";
                request_params := None; client_params := None |}
    = Ok {| name := "n"; model := "anthropic.claude-3-opus-20240229-v1:0";
            max_tokens := 8192;
            temperature := Some (FFin 0); top_p := Some (FFin 0);
            top_k := Some 0%Z;
            stop_sequences := None; anthropic_version := "bedrock-2023-05-31";
            request_params := None; client_params := None |}.
Proof.
  split.
  - destruct (check_hyperparameters_ranges
                {| name := "n"; model := "anthropic.claude-3-opus-20240229-v1:0";
                   max_tokens := 8192;
                   temperature := Some (FFin (3 # 2)); top_p := None;
                   top_k := Some 501%Z;
                   stop_sequences := None;
                   anthropic_version := "bedrock-2023-05-31";
                   request_params := None; client_params := None |})
      as [Hrej _].
    destruct Hrej as (msg & _ & _ & Hinit & _).
    + left. exists (FFin (3 # 2)). simpl. split; [reflexivity|].
      split; [intros Hq; discriminate Hq | intros [_ Hle]; apply Hle; reflexivity].
    + exists msg. apply Hinit. apply str_in_elem_of. reflexivity.
  - destruct (check_hyperparameters_ranges
                {| name := "n"; model := "anthropic.claude-3-opus-20240229-v1:0";
                   max_tokens := 8192;
                   temperature := Some (FFin 0); top_p := Some (FFin 0);
                   top_k := Some 0%Z;
                   stop_sequences := None;
                   anthropic_version := "bedrock-2023-05-31";
                   request_params := None; client_params := None |})
      as (_ & _ & _ & _ & Hacc).
    apply Hacc; simpl.
    + apply str_in_elem_of. reflexivity.
    + left. intros Hnz. apply Hnz. reflexivity.
    + left. intros Hnz. apply Hnz. reflexivity.
    + left. reflexivity.
Defined.

(** ** The effective request parameters *)

Lemma lookup_set_if {A : Type} (t : A → bool) (inj : A → pyval)
    (k k' : string) (o : option A) (d : gmap string pyval) :
  set_if t inj k o d !! k'
  = if decide (k = k')
    then match kept t o with Some a => Some (inj a) | None => d !! k' end
    else d !! k'.
Proof.
  unfold set_if, kept. destruct o as [a|]; [destruct (t a)|];
    case_decide; simplify_map_eq; done.
Qed.

Lemma dict_falsy_empty (d : gmap string pyval) :
  dict_truthy d = false → d = ∅.
Proof.
  unfold dict_truthy. intros Hd. apply bool_decide_eq_false in Hd.
  apply dom_empty_iff_L. by destruct (decide (dom d = ∅)).
Qed.

Lemma api_kwargs_union (self : Claude) :
  api_kwargs self = default ∅ (request_params self) ∪ computed_params self.
Proof.
  unfold api_kwargs, dict_update. destruct (request_params self) as [rp|]; simpl.
  - destruct (dict_truthy rp) eqn:Hrp; [done|].
    rewrite (dict_falsy_empty rp Hrp). by rewrite (left_id_L ∅ (∪)).
  - by rewrite (left_id_L ∅ (∪)).
Qed.

Lemma lookup_api_kwargs (self : Claude) (k : string) :
  api_kwargs self !! k
  = match default ∅ (request_params self) !! k with
    | Some v => Some v
    | None => computed_params self !! k
    end.
Proof.
  rewrite api_kwargs_union, lookup_union.
  destruct (default ∅ (request_params self) !! k) as [v|];
    destruct (computed_params self !! k); done.
Qed.

Lemma lookup_computed_params (self : Claude) (k : string) :
  computed_params self !! k
  = if decide (k = "stop_sequences")
    then (λ l, VList (VStr <$> l)) <$> kept list_truthy (stop_sequences self)
    else if decide (k = "top_k")
    then VInt <$> kept int_truthy (top_k self)
    else if decide (k = "top_p")
    then VFloat <$> kept float_truthy (top_p self)
    else if decide (k = "temperature")
    then VFloat <$> kept float_truthy (temperature self)
    else if decide (k = "anthropic_version")
    then Some (VStr (anthropic_version self))
    else if decide (k = "max_tokens")
    then Some (VInt (max_tokens self))
    else None.
Proof.
  unfold computed_params. rewrite !lookup_set_if.
  repeat case_decide; simplify_eq; simplify_map_eq;
    repeat match goal with |- context [kept ?t ?o] => destruct (kept t o) end;
    done.
Qed.

(** C6: the effective parameters are a function of the configuration alone.
    The computed mapping always holds max_tokens and anthropic_version,
    holds temperature, top_p, top_k and stop_sequences exactly when the
    attribute is present and truthy, and holds no other key; the result is
    the extension mapping merged on top of it, a key of the extension
    mapping overriding the computed value of the same key. *)
Theorem api_kwargs_derivation (self : Claude) :
  let computed := computed_params self in
  let extension : gmap string pyval := default ∅ (request_params self) in
  computed !! "max_tokens" = Some (VInt (max_tokens self))
  ∧ computed !! "anthropic_version" = Some (VStr (anthropic_version self))
  ∧ computed !! "temperature"
    = VFloat <$> kept float_truthy (temperature self)
  ∧ computed !! "top_p" = VFloat <$> kept float_truthy (top_p self)
  ∧ computed !! "top_k" = VInt <$> kept int_truthy (top_k self)
  ∧ computed !! "stop_sequences"
    = (λ l, VList (VStr <$> l)) <$> kept list_truthy (stop_sequences self)
  ∧ (∀ k : string, k ∉ computed_keys → computed !! k = None)
  ∧ api_kwargs self = extension ∪ computed
  ∧ (∀ (k : string) (v : pyval),
       extension !! k = Some v → api_kwargs self !! k = Some v)
  ∧ (∀ k : string,
       extension !! k = None → api_kwargs self !! k = computed !! k).
Proof.
  cbv zeta. repeat split.
  - by rewrite lookup_computed_params.
  - by rewrite lookup_computed_params.
  - by rewrite lookup_computed_params.
  - by rewrite lookup_computed_params.
  - by rewrite lookup_computed_params.
  - by rewrite lookup_computed_params.
  - intros k Hk. rewrite lookup_computed_params.
    unfold computed_keys in Hk. rewrite !not_elem_of_cons in Hk.
    destruct Hk as (? & ? & ? & ? & ? & ? & _).
    repeat case_decide; done.
  - apply api_kwargs_union.
  - intros k v Hk. by rewrite lookup_api_kwargs, Hk.
  - intros k Hk. by rewrite lookup_api_kwargs, Hk.
Qed.

Lemma api_kwargs_derivation_witness :
  api_kwargs {| name := "n"; model := "anthropic.claude-3-opus-20240229-v1:0";
                max_tokens := 8192;
                temperature := Some (FFin (1 # 2)); top_p := Some (FFin 0);
                top_k := None; stop_sequences := Some [];
                anthropic_version := "bedrock-2023-05-31";
                request_params := Some {[ "temperature" := VInt 1 ]};
                client_params := None |} !! "temperature"
  = Some (VInt 1)
  ∧ api_kwargs {| name := "n"; model := "anthropic.claude-3-opus-20240229-v1:0";
                max_tokens := 8192;
                temperature := Some (FFin (1 # 2)); top_p := Some (FFin 0);
                top_k := None; stop_sequences := Some [];
                anthropic_version := "bedrock-2023-05-31";
                request_params := Some {[ "temperature" := VInt 1 ]};
                client_params := None |} !! "top_p"
  = None.
Proof.
  destruct (api_kwargs_derivation
              {| name := "n"; model := "anthropic.claude-3-opus-20240229-v1:0";
                 max_tokens := 8192;
                 temperature := Some (FFin (1 # 2)); top_p := Some (FFin 0);
                 top_k := None; stop_sequences := Some [];
                 anthropic_version := "bedrock-2023-05-31";
                 request_params := Some {[ "temperature" := VInt 1 ]};
                 client_params := None |})
    as (_ & _ & _ & Htop_p & _ & _ & _ & _ & Hext & Hcomp).
  split.
  - apply Hext. reflexivity.
  - rewrite (Hcomp "top_p"); [exact Htop_p | reflexivity].
Defined.

(** ** Request-body construction *)

Lemma is_system_role (m : Message) :
  is_system m = true ↔ role m = VStr "system".
Proof.
  unfold is_system, py_eq_str. destruct (role m) as [| | | |s| |]; try done.
  rewrite String.eqb_eq. split; [by intros -> | by intros [= ->]].
Qed.

Lemma scan_snoc (messages : list Message) (m : Message) :
  scan (messages ++ [m]) = scan_step (scan messages) m.
Proof. unfold scan. by rewrite fold_left_app. Qed.

Lemma scan_spec (messages : list Message) :
  scan messages
  = (default VNone (last_system_content messages),
     role_content_pair <$> non_system messages).
Proof.
  induction messages as [|m messages IH] using rev_ind; [done|].
  rewrite scan_snoc, IH. unfold scan_step, last_system_content, non_system.
  rewrite !List.filter_app. simpl. fold (is_system m).
  destruct (is_system m); simpl.
  - rewrite last_snoc, (right_id_L [] (++)). done.
  - rewrite (right_id_L [] (++)), fmap_app. simpl.
    do 3 f_equal.
Qed.

Lemma get_request_body_unfold (self : Claude) (messages : list Message) :
  get_request_body self messages
  = let system_prompt := default VNone (last_system_content messages) in
    if truthy system_prompt
    then <["system" := system_prompt]> (merged_body self messages)
    else merged_body self messages.
Proof.
  unfold get_request_body, merged_body, dict_update. rewrite scan_spec.
  by rewrite insert_empty.
Qed.

Lemma lookup_merged_body (self : Claude) (messages : list Message)
    (k : string) :
  merged_body self messages !! k
  = match api_kwargs self !! k with
    | Some v => Some v
    | None =>
        if decide (k = "messages")
        then Some (VList (role_content_pair <$> non_system messages))
        else None
    end.
Proof.
  unfold merged_body. rewrite lookup_union.
  case_decide as Hk.
  - subst k. rewrite lookup_singleton_eq.
    by destruct (api_kwargs self !! "messages").
  - rewrite lookup_singleton_ne by done.
    by destruct (api_kwargs self !! k).
Qed.

Lemma get_request_body_truthy (self : Claude) (messages : list Message)
    (c : pyval) :
  last_system_content messages = Some c → truthy c = true →
  get_request_body self messages
  = <["system" := c]> (merged_body self messages).
Proof.
  intros Hlast Hc. rewrite get_request_body_unfold, Hlast. simpl.
  by rewrite Hc.
Qed.

Lemma get_request_body_falsy (self : Claude) (messages : list Message) :
  opt_truthy truthy (last_system_content messages) = false →
  get_request_body self messages = merged_body self messages.
Proof.
  intros Hc. rewrite get_request_body_unfold.
  destruct (last_system_content messages) as [c|]; simpl in *;
    [by rewrite Hc | done].
Qed.

Lemma computed_params_no_messages (self : Claude) :
  computed_params self !! "messages" = None.
Proof. by rewrite lookup_computed_params. Qed.

Lemma computed_params_no_system (self : Claude) :
  computed_params self !! "system" = None.
Proof. by rewrite lookup_computed_params. Qed.

(** C1, as amended: when the extension mapping has no [messages] key, the
    [messages] array of the request body holds the [{role, content}] pair
    of every message that is not a system message, in the original order,
    and no system message; and when the content of the last system message
    is truthy, that content is the top-level [system] field, whatever
    earlier system messages held. *)
Theorem get_request_body_scan (self : Claude) (messages : list Message) :
  default ∅ (request_params self) !! "messages" = None →
  get_request_body self messages !! "messages"
  = Some (VList (role_content_pair <$> non_system messages))
  ∧ ∀ c : pyval,
      last_system_content messages = Some c → truthy c = true →
      get_request_body self messages !! "system" = Some c.
Proof.
  intros Hext. split.
  - assert (merged_body self messages !! "messages"
            = Some (VList (role_content_pair <$> non_system messages)))
      as Hmerged.
    { rewrite lookup_merged_body, lookup_api_kwargs, Hext.
      by rewrite computed_params_no_messages. }
    rewrite get_request_body_unfold. cbv zeta.
    destruct (truthy (default VNone (last_system_content messages)));
      [by rewrite lookup_insert_ne|done].
  - intros c Hlast Hc.
    rewrite (get_request_body_truthy self messages c Hlast Hc).
    apply lookup_insert_eq.
Qed.

Lemma get_request_body_scan_witness :
  get_request_body default_args
    [ mkMessage (VStr "system") (VStr "S1");
      mkMessage (VStr "user") (VStr "U1");
      mkMessage (VStr "system") (VStr "S2");
      mkMessage (VStr "assistant") (VStr "A1") ] !! "messages"
  = Some (VList [ VDict {[ "role" := VStr "user"; "content" := VStr "U1" ]};
                  VDict {[ "role" := VStr "assistant";
                           "content" := VStr "A1" ]} ])
  ∧ get_request_body default_args
      [ mkMessage (VStr "system") (VStr "S1");
        mkMessage (VStr "user") (VStr "U1");
        mkMessage (VStr "system") (VStr "S2");
        mkMessage (VStr "assistant") (VStr "A1") ] !! "system"
    = Some (VStr "S2").
Proof.
  destruct (get_request_body_scan default_args
              [ mkMessage (VStr "system") (VStr "S1");
                mkMessage (VStr "user") (VStr "U1");
                mkMessage (VStr "system") (VStr "S2");
                mkMessage (VStr "assistant") (VStr "A1") ])
    as [Hmessages Hsystem].
  - reflexivity.
  - split; [exact Hmessages | apply Hsystem; reflexivity].
Defined.

(** The claim C1 as it is written fails in two ways: the content of the last
    system message does not become the [system] field when it is empty, and
    a [messages] key of the extension mapping replaces the array built from
    the input list. *)
Lemma get_request_body_scan_counterexample :
  ¬ (∀ (self : Claude) (messages : list Message) (c : pyval),
       last_system_content messages = Some c →
       get_request_body self messages !! "system" = Some c)
  ∧ ¬ (∀ (self : Claude) (messages : list Message),
         get_request_body self messages !! "messages"
         = Some (VList (role_content_pair <$> non_system messages))).
Proof.
  split.
  - intros Hclaim.
    specialize (Hclaim default_args
                  [ mkMessage (VStr "system") (VStr "S1");
                    mkMessage (VStr "system") (VStr "");
                    mkMessage (VStr "user") (VStr "U") ]
                  (VStr "") eq_refl).
    vm_compute in Hclaim. discriminate Hclaim.
  - intros Hclaim.
    specialize (Hclaim
                  {| name := "n"; model := "anthropic.claude-3-opus-20240229-v1:0";
                     max_tokens := 8192; temperature := None; top_p := None;
                     top_k := None; stop_sequences := None;
                     anthropic_version := "bedrock-2023-05-31";
                     request_params := Some {[ "messages" := VStr "X" ]};
                     client_params := None |}
                  [ mkMessage (VStr "user") (VStr "U") ]).
    vm_compute in Hclaim. discriminate Hclaim.
Qed.

(** C9: the [system] field is set by the construction only when the content
    of the last system message is truthy.  When there is no system message
    or the last one has a falsy content, [None] or the empty string in
    particular, the body is the merged body alone, even if an earlier system
    message had a content: its [system] entry is the one of the effective
    parameters, and it is absent when the extension mapping has none. *)
Theorem get_request_body_system_guard (self : Claude)
    (messages : list Message) :
  (opt_truthy truthy (last_system_content messages) = false →
     get_request_body self messages = merged_body self messages)
  ∧ (∀ c : pyval,
       last_system_content messages = Some c → c = VNone ∨ c = VStr "" →
       get_request_body self messages = merged_body self messages
       ∧ get_request_body self messages !! "system"
         = api_kwargs self !! "system"
       ∧ (default ∅ (request_params self) !! "system" = None →
            get_request_body self messages !! "system" = None))
  ∧ (get_request_body self messages ≠ merged_body self messages →
       ∃ c : pyval, last_system_content messages = Some c ∧ truthy c = true).
Proof.
  split; [apply get_request_body_falsy|]. split.
  - intros c Hlast Hc.
    assert (get_request_body self messages = merged_body self messages)
      as Hbody.
    { apply get_request_body_falsy. rewrite Hlast.
      by destruct Hc as [->| ->]. }
    rewrite Hbody. split; [done|].
    assert (merged_body self messages !! "system"
            = api_kwargs self !! "system") as Hsys.
    { rewrite lookup_merged_body.
      destruct (api_kwargs self !! "system"); [done|]. by case_decide. }
    split; [done|]. intros Hext.
    by rewrite Hsys, lookup_api_kwargs, Hext, computed_params_no_system.
  - intros Hne. destruct (last_system_content messages) as [c|] eqn:Hlast.
    + exists c. split; [done|]. destruct (truthy c) eqn:Hc; [done|].
      destruct Hne. apply get_request_body_falsy. by rewrite Hlast.
    + destruct Hne. apply get_request_body_falsy. by rewrite Hlast.
Qed.

Lemma get_request_body_system_guard_witness :
  get_request_body default_args
    [ mkMessage (VStr "system") (VStr "S1");
      mkMessage (VStr "user") (VStr "U");
      mkMessage (VStr "system") (VStr "") ] !! "system" = None
  ∧ get_request_body default_args
      [ mkMessage (VStr "system") (VStr "S1");
        mkMessage (VStr "system") VNone ] !! "system" = None.
Proof.
  split.
  - destruct (get_request_body_system_guard default_args
                [ mkMessage (VStr "system") (VStr "S1");
                  mkMessage (VStr "user") (VStr "U");
                  mkMessage (VStr "system") (VStr "") ])
      as (_ & Hfalsy & _).
    destruct (Hfalsy (VStr "")) as (_ & _ & Habsent);
      [reflexivity | right; reflexivity | apply Habsent; reflexivity].
  - destruct (get_request_body_system_guard default_args
                [ mkMessage (VStr "system") (VStr "S1");
                  mkMessage (VStr "system") VNone ])
      as (_ & Hfalsy & _).
    destruct (Hfalsy VNone) as (_ & _ & Habsent);
      [reflexivity | left; reflexivity | apply Habsent; reflexivity].
Defined.

(** C10: the effective parameters are merged over the [messages] key, so a
    [messages] key of the extension mapping replaces the array built from
    the input list; the [system] field is assigned after the merge, so a
    truthy system prompt replaces a [system] key of the extension mapping
    (which stays when no truthy system prompt was captured). *)
Theorem get_request_body_merge_order (self : Claude)
    (messages : list Message) (rp : gmap string pyval) :
  request_params self = Some rp →
  (∀ v : pyval,
     rp !! "messages" = Some v →
     get_request_body self messages !! "messages" = Some v)
  ∧ (∀ w c : pyval,
       rp !! "system" = Some w →
       last_system_content messages = Some c → truthy c = true →
       get_request_body self messages !! "system" = Some c)
  ∧ (∀ w : pyval,
       rp !! "system" = Some w →
       opt_truthy truthy (last_system_content messages) = false →
       get_request_body self messages !! "system" = Some w).
Proof.
  intros Hrp. split; [|split].
  - intros v Hv. rewrite get_request_body_unfold. cbv zeta.
    assert (merged_body self messages !! "messages" = Some v) as Hmerged.
    { by rewrite lookup_merged_body, lookup_api_kwargs, Hrp; simpl; rewrite Hv. }
    destruct (truthy (default VNone (last_system_content messages)));
      [by rewrite lookup_insert_ne|done].
  - intros w c _ Hlast Hc.
    rewrite (get_request_body_truthy self messages c Hlast Hc).
    apply lookup_insert_eq.
  - intros w Hw Hfalsy.
    rewrite (get_request_body_falsy self messages Hfalsy).
    by rewrite lookup_merged_body, lookup_api_kwargs, Hrp; simpl; rewrite Hw.
Qed.

Lemma get_request_body_merge_order_witness :
  get_request_body
    {| name := "n"; model := "anthropic.claude-3-opus-20240229-v1:0";
       max_tokens := 8192; temperature := None; top_p := None;
       top_k := None; stop_sequences := None;
       anthropic_version := "bedrock-2023-05-31";
       request_params :=
         Some {[ "messages" := VList []; "system" := VStr "from params" ]};
       client_params := None |}
    [ mkMessage (VStr "system") (VStr "S");
      mkMessage (VStr "user") (VStr "U") ] !! "messages" = Some (VList [])
  ∧ get_request_body
      {| name := "n"; model := "anthropic.claude-3-opus-20240229-v1:0";
         max_tokens := 8192; temperature := None; top_p := None;
         top_k := None; stop_sequences := None;
         anthropic_version := "bedrock-2023-05-31";
         request_params :=
           Some {[ "messages" := VList []; "system" := VStr "from params" ]};
         client_params := None |}
      [ mkMessage (VStr "system") (VStr "S");
        mkMessage (VStr "user") (VStr "U") ] !! "system" = Some (VStr "S").
Proof.
  destruct (get_request_body_merge_order
              {| name := "n"; model := "anthropic.claude-3-opus-20240229-v1:0";
                 max_tokens := 8192; temperature := None; top_p := None;
                 top_k := None; stop_sequences := None;
                 anthropic_version := "bedrock-2023-05-31";
                 request_params :=
                   Some {[ "messages" := VList [];
                           "system" := VStr "from params" ]};
                 client_params := None |}
              [ mkMessage (VStr "system") (VStr "S");
                mkMessage (VStr "user") (VStr "U") ]
              {[ "messages" := VList []; "system" := VStr "from params" ]}
              eq_refl)
    as (Hmessages & Hsystem & _).
  split.
  - apply Hmessages. reflexivity.
  - apply (Hsystem (VStr "from params")); reflexivity.
Defined.

(** ** Parsing a complete response *)

Lemma type_is_message (response : gmap string pyval) :
  py_eq_str (dict_get response "type") "message" = true
  ↔ response !! "type" = Some (VStr "message").
Proof.
  unfold dict_get. destruct (response !! "type") as [v|]; simpl; [|done].
  destruct v as [| | | |s| |]; simpl; try done.
  rewrite String.eqb_eq. split; [by intros -> | by intros [= ->]].
Qed.

Lemma texts_of_has_text (l : list pyval) (ts : list string) :
  Forall2 has_text l ts → texts_of l = Ok (VStr <$> ts).
Proof.
  unfold texts_of. induction 1 as [|c t l ts (d & -> & Hd) _ IH]; [done|].
  simpl. unfold dict_get. rewrite Hd. simpl. by rewrite IH.
Qed.

Lemma str_items_strings (ts : list string) : str_items (VStr <$> ts) = Ok ts.
Proof.
  induction ts as [|t ts IH]; [done|].
  rewrite fmap_cons. cbn [str_items]. by rewrite IH.
Qed.

(** X14: for a payload whose [type] is ["message"], the parsed message has
    the payload's role ([None] when the payload has none), and on a
    well-formed [content] its content follows the shape of that field: a
    string is kept verbatim; an object gives its [text] field, the empty
    string when it has none; a list all of whose elements are objects with a
    string under [text] gives these strings joined by line feeds in list
    order; a missing field, [None], a boolean or a number gives the empty
    string. *)
Theorem parse_response_message_content (self : Claude)
    (response : gmap string pyval) :
  response !! "type" = Some (VStr "message") →
  let payload_role := default VNone (response !! "role") in
  (∀ s : string,
     response !! "content" = Some (VStr s) →
     parse_response_message self response
     = Ok (mkMessage payload_role (VStr s)))
  ∧ (∀ d : gmap string pyval,
       response !! "content" = Some (VDict d) →
       parse_response_message self response
       = Ok (mkMessage payload_role (default (VStr "") (d !! "text"))))
  ∧ (∀ (l : list pyval) (ts : list string),
       response !! "content" = Some (VList l) → Forall2 has_text l ts →
       parse_response_message self response
       = Ok (mkMessage payload_role (VStr (String.concat LF ts))))
  ∧ (other_shape (response !! "content") →
       parse_response_message self response
       = Ok (mkMessage payload_role (VStr ""))).
Proof.
  intros Htype. apply type_is_message in Htype.
  unfold parse_response_message. rewrite Htype. cbv zeta.
  unfold dict_get, dict_get_default. repeat split.
  - intros s Hc. rewrite Hc. simpl default.
    destruct s; done.
  - intros d Hc. rewrite Hc. simpl default. simpl truthy.
    destruct (dict_truthy d) eqn:Hd; [done|].
    by rewrite (dict_falsy_empty d Hd).
  - intros l ts Hc Htexts. rewrite Hc. simpl default.
    destruct Htexts as [|c t l ts Hct Hrest]; [done|].
    simpl truthy. cbv iota.
    rewrite (texts_of_has_text (c :: l) (t :: ts)) by by constructor.
    unfold py_join. simpl mbind at 2.
    by rewrite str_items_strings.
  - intros Hshape.
    destruct (response !! "content") as [[| | | | | |]|]; simpl in *;
      try done; by repeat case_match.
Qed.

Lemma parse_response_message_content_witness :
  parse_response_message default_args
    {[ "type" := VStr "message"; "role" := VStr "assistant";
       "content" := VList [ VDict {[ "text" := VStr "a" ]};
                            VDict {[ "text" := VStr "b" ]} ] ]}
  = Ok (mkMessage (VStr "assistant") (VStr "a
b")).
Proof.
  destruct (parse_response_message_content default_args
              {[ "type" := VStr "message"; "role" := VStr "assistant";
                 "content" := VList [ VDict {[ "text" := VStr "a" ]};
                                      VDict {[ "text" := VStr "b" ]} ] ]})
    as (_ & _ & Hlist & _); [reflexivity|].
  apply (Hlist [ VDict {[ "text" := VStr "a" ]}; VDict {[ "text" := VStr "b" ]} ]
               [ "a"; "b" ]).
  - reflexivity.
  - repeat constructor.
    + exists {[ "text" := VStr "a" ]}. split; reflexivity.
    + exists {[ "text" := VStr "b" ]}. split; reflexivity.
Defined.

(** C2: the content of a parsed message does not follow the shape of the
    [content] field on every payload of type ["message"].  A list holding an
    object without a [text] key makes the join raise [TypeError], although
    the same object standing alone gives the empty string, and a list
    holding a value that is not an object makes the comprehension raise
    [AttributeError], although the same value standing alone gives the empty
    string; a list of objects that all carry a text is joined by line
    feeds. *)
Theorem parse_response_message_content_malformed_list :
  parse_response_message default_args
    {[ "type" := VStr "message"; "role" := VStr "assistant";
       "content" := VList [ VDict {[ "text" := VStr "a" ]};
                            VDict {[ "id" := VStr "t1" ]} ] ]}
  = Raise TypeError
  ∧ parse_response_message default_args
      {[ "type" := VStr "message"; "role" := VStr "assistant";
         "content" := VDict {[ "id" := VStr "t1" ]} ]}
    = Ok (mkMessage (VStr "assistant") (VStr ""))
  ∧ parse_response_message default_args
      {[ "type" := VStr "message"; "role" := VStr "assistant";
         "content" := VList [ VDict {[ "text" := VStr "a" ]}; VInt 7 ] ]}
    = Raise AttributeError
  ∧ parse_response_message default_args
      {[ "type" := VStr "message"; "role" := VStr "assistant";
         "content" := VInt 7 ]}
    = Ok (mkMessage (VStr "assistant") (VStr ""))
  ∧ parse_response_message default_args
      {[ "type" := VStr "message"; "role" := VStr "assistant";
         "content" := VList [ VDict {[ "text" := VStr "a" ]};
                              VDict {[ "text" := VStr "b" ]} ] ]}
    = Ok (mkMessage (VStr "assistant") (VStr "a
b")).
Proof. repeat split; reflexivity. Qed.

(** C3: parsing is not total.  For a payload of type ["message"] whose
    [content] is a list with an object that has no [text] key, the list
    comprehension yields [None] for that element and the join raises
    [TypeError]; the object branch of the same function supplies the default
    [""] that the list branch omits. *)
Theorem parse_response_message_list_without_text :
  parse_response_message default_args
    {[ "type" := VStr "message"; "role" := VStr "assistant";
       "content" := VList [ VDict {[ "type" := VStr "tool_use" ]} ] ]}
  = Raise TypeError
  ∧ parse_response_message default_args
      {[ "type" := VStr "message"; "role" := VStr "assistant";
         "content" := VDict {[ "type" := VStr "tool_use" ]} ]}
    = Ok (mkMessage (VStr "assistant") (VStr "")).
Proof. split; reflexivity. Qed.

(** A content list with an element that is not an object fails earlier, in
    the list comprehension. *)
Example parse_response_message_list_of_strings :
  parse_response_message default_args
    {[ "type" := VStr "message"; "role" := VStr "assistant";
       "content" := VList [ VStr "a" ] ]}
  = Raise AttributeError.
Proof. reflexivity. Qed.

(** C8: a payload whose [type] field is missing or is not ["message"] is
    parsed to a message with the role ["assistant"] and the value of the
    [completion] field as content, [None] when that field is missing or
    null. *)
Theorem parse_response_message_fallback (self : Claude)
    (response : gmap string pyval) :
  response !! "type" ≠ Some (VStr "message") →
  parse_response_message self response
  = Ok (mkMessage (VStr "assistant") (default VNone (response !! "completion")))
  ∧ (response !! "completion" = None ∨ response !! "completion" = Some VNone →
       parse_response_message self response
       = Ok (mkMessage (VStr "assistant") VNone)).
Proof.
  intros Htype.
  assert (parse_response_message self response
          = Ok (mkMessage (VStr "assistant")
                  (default VNone (response !! "completion")))) as Hparse.
  { unfold parse_response_message.
    destruct (py_eq_str (dict_get response "type") "message") eqn:Heq; [|done].
    by apply type_is_message in Heq. }
  split; [done|]. intros [Hc|Hc]; by rewrite Hparse, Hc.
Qed.

Lemma parse_response_message_fallback_witness :
  parse_response_message default_args {[ "completion" := VStr "hello" ]}
  = Ok (mkMessage (VStr "assistant") (VStr "hello"))
  ∧ parse_response_message default_args {[ "type" := VStr "error" ]}
    = Ok (mkMessage (VStr "assistant") VNone).
Proof.
  split.
  - destruct (parse_response_message_fallback default_args
                {[ "completion" := VStr "hello" ]}) as [Hparse _].
    + discriminate.
    + exact Hparse.
  - destruct (parse_response_message_fallback default_args
                {[ "type" := VStr "error" ]}) as [_ Hnull].
    + discriminate.
    + apply Hnull. left. reflexivity.
Defined.

(** ** Parsing a streaming fragment *)

(** X15: when the fragment has a [delta] field that is an object, the
    result is the [text] field of that object, [None] when it has none; when
    the fragment has no [delta] field, the result is its [completion] field,
    [None] when it has none; the empty fragment gives [None]. *)
Theorem parse_response_delta_cases (self : Claude)
    (response : gmap string pyval) :
  (∀ d : gmap string pyval,
     response !! "delta" = Some (VDict d) →
     parse_response_delta self response = Ok (default VNone (d !! "text")))
  ∧ (response !! "delta" = None →
       parse_response_delta self response
       = Ok (default VNone (response !! "completion")))
  ∧ parse_response_delta self ∅ = Ok VNone.
Proof.
  unfold parse_response_delta, dict_contains, dict_get_default. repeat split.
  - intros d Hd. by rewrite Hd.
  - intros Hd. by rewrite Hd.
Qed.

Lemma parse_response_delta_cases_witness :
  parse_response_delta default_args
    {[ "delta" := VDict {[ "text" := VStr "chunk" ]} ]} = Ok (VStr "chunk")
  ∧ parse_response_delta default_args {[ "delta" := VDict ∅ ]} = Ok VNone
  ∧ parse_response_delta default_args {[ "completion" := VStr "full" ]}
    = Ok (VStr "full").
Proof.
  split; [|split].
  - destruct (parse_response_delta_cases default_args
                {[ "delta" := VDict {[ "text" := VStr "chunk" ]} ]})
      as (Hdelta & _ & _).
    rewrite (Hdelta {[ "text" := VStr "chunk" ]}); reflexivity.
  - destruct (parse_response_delta_cases default_args
                {[ "delta" := VDict ∅ ]}) as (Hdelta & _ & _).
    rewrite (Hdelta ∅); reflexivity.
  - destruct (parse_response_delta_cases default_args
                {[ "completion" := VStr "full" ]}) as (_ & Hcompletion & _).
    rewrite Hcompletion; reflexivity.
Defined.

(** C7: a fragment that has a [delta] field is not always parsed to the
    text of that delta.  A null [delta], or one that is a string, has no
    [text] to return and makes the lookup raise [AttributeError], where an
    empty object as [delta], a missing [delta] and a missing [completion]
    all give [None]; the default [{}] of the lookup is never used, since the
    key is known to be present. *)
Theorem parse_response_delta_null_delta :
  parse_response_delta default_args {[ "delta" := VNone ]}
  = Raise AttributeError
  ∧ parse_response_delta default_args {[ "delta" := VStr "chunk" ]}
    = Raise AttributeError
  ∧ parse_response_delta default_args {[ "delta" := VDict ∅ ]} = Ok VNone
  ∧ parse_response_delta default_args {[ "type" := VStr "ping" ]} = Ok VNone.
Proof. repeat split; reflexivity. Qed.

(** A [delta] field that is not an object has no [get] method. *)
Lemma parse_response_delta_not_object (self : Claude)
    (response : gmap string pyval) (v : pyval) :
  response !! "delta" = Some v → (∀ d, v ≠ VDict d) →
  parse_response_delta self response = Raise AttributeError.
Proof.
  intros Hv Hnot. unfold parse_response_delta, dict_contains, dict_get_default.
  rewrite Hv. simpl. destruct v; try done. by destruct (Hnot d).
Qed.

(** * Further properties *)

(** ** Construction *)

Lemma float_accepted_or_rejected (o : option pyfloat) (hi : Z) :
  float_accepted o hi ∨ float_rejected o hi.
Proof.
  destruct o as [f|]; [|by left]. simpl.
  destruct (float_truthy f) eqn:Ht.
  - destruct (float_in_range f hi) eqn:Hin.
    + left. right. by apply float_in_range_within.
    + right. exists f. split; [done|]. split; [by apply float_truthy_nonzero|].
      intros Hw. apply float_in_range_within in Hw. congruence.
  - left. left. intros Hnz. apply float_truthy_nonzero in Hnz. congruence.
Qed.

Lemma int_accepted_or_rejected (o : option Z) (hi : Z) :
  int_accepted o hi ∨ int_rejected o hi.
Proof.
  destruct o as [k|]; [|by left]. simpl.
  destruct (decide (k = 0%Z)) as [->|Hk]; [by left; left|].
  destruct (decide (0 ≤ k ≤ hi)%Z) as [Hin|Hout]; [by left; right|].
  right. by exists k.
Qed.

(** Zero lies in every interval from 0 to a bound that is not negative, so
    skipping the check at zero accepts nothing the check would refuse. *)
Lemma float_accepted_within (o : option pyfloat) (hi : Z) :
  (0 ≤ hi)%Z → float_accepted o hi ↔ float_absent_or_within o hi.
Proof.
  intros Hhi. destruct o as [f|]; simpl; [|done]. split; [|by right].
  intros [Hz|Hin]; [|done]. destruct f as [q| |]; simpl in *; try by destruct Hz.
  destruct (Qeq_dec q 0) as [Hq|Hq]; [|by destruct Hz].
  rewrite Hq. split; [apply Qle_refl|].
  change 0%Q with (inject_Z 0). by rewrite <- Zle_Qle.
Qed.

Lemma int_accepted_within (o : option Z) (hi : Z) :
  (0 ≤ hi)%Z → int_accepted o hi ↔ int_absent_or_within o hi.
Proof. intros Hhi. destruct o as [k|]; simpl; [lia|done]. Qed.

Lemma check_hyperparameters_ok_inv (self : Claude) :
  check_hyperparameters self = Ok tt →
  float_accepted (temperature self) 1
  ∧ float_accepted (top_p self) 1
  ∧ int_accepted (top_k self) 500.
Proof.
  intros Hok.
  destruct (float_accepted_or_rejected (temperature self) 1) as [Ht|Ht];
    [|by rewrite (check_hyperparameters_temperature self Ht) in Hok].
  destruct (float_accepted_or_rejected (top_p self) 1) as [Hp|Hp];
    [|by rewrite (check_hyperparameters_top_p self Ht Hp) in Hok].
  destruct (int_accepted_or_rejected (top_k self) 500) as [Hk|Hk];
    [done|by rewrite (check_hyperparameters_top_k self Ht Hp Hk) in Hok].
Qed.

Lemma init_ok_inv (args self : Claude) :
  __init__ args = Ok self →
  self = args
  ∧ model args ∈ ALLOWED_CLAUDE_IDS
  ∧ float_accepted (temperature args) 1
  ∧ float_accepted (top_p args) 1
  ∧ int_accepted (top_k args) 500.
Proof.
  unfold __init__, check_model_id.
  destruct (str_in (model args) ALLOWED_CLAUDE_IDS) eqn:Hin; simpl; [|done].
  apply str_in_elem_of in Hin.
  destruct (check_hyperparameters args) as [[]|e] eqn:Hchk; simpl; [|done].
  intros [= <-]. split; [done|]. split; [done|].
  by apply check_hyperparameters_ok_inv.
Qed.

Lemma init_ok_intro (args : Claude) :
  model args ∈ ALLOWED_CLAUDE_IDS →
  float_accepted (temperature args) 1 →
  float_accepted (top_p args) 1 →
  int_accepted (top_k args) 500 →
  __init__ args = Ok args.
Proof.
  intros Hin Ht Hp Hk. unfold __init__.
  rewrite (check_model_id_allowed args Hin). simpl.
  by rewrite (check_hyperparameters_accepted args Ht Hp Hk).
Qed.

(** X1: construction succeeds exactly when the model is in the allow-list
    and each of temperature, top_p and top_k is absent or lies in its closed
    range; it then returns the arguments as the adapter, unchanged.  The
    truthiness test in front of each range check changes nothing: zero is
    inside each range. *)
Theorem init_succeeds_iff (args self : Claude) :
  __init__ args = Ok self
  ↔ self = args
    ∧ model args ∈ ALLOWED_CLAUDE_IDS
    ∧ float_absent_or_within (temperature args) 1
    ∧ float_absent_or_within (top_p args) 1
    ∧ int_absent_or_within (top_k args) 500.
Proof.
  rewrite <- !float_accepted_within, <- int_accepted_within by lia. split.
  - apply init_ok_inv.
  - intros (-> & Hin & Ht & Hp & Hk). by apply init_ok_intro.
Qed.

Lemma init_succeeds_iff_witness :
  __init__ {| name := "n"; model := "anthropic.claude-3-haiku-20240307-v1:0";
              max_tokens := (-5);
              temperature := Some (FFin 1); top_p := Some (FFin 0);
              top_k := Some 500%Z;
              stop_sequences := None; anthropic_version := "v";
              request_params := None; client_params := None |}
  = Ok {| name := "n"; model := "anthropic.claude-3-haiku-20240307-v1:0";
          max_tokens := (-5);
          temperature := Some (FFin 1); top_p := Some (FFin 0);
          top_k := Some 500%Z;
          stop_sequences := None; anthropic_version := "v";
          request_params := None; client_params := None |}.
Proof.
  apply init_succeeds_iff. simpl. split; [reflexivity|].
  split; [apply str_in_elem_of; reflexivity|].
  split; [split; discriminate|]. split; [split; discriminate|]. lia.
Defined.

Lemma kept_Some {A : Type} (t : A → bool) (o : option A) (a : A) :
  kept t o = Some a ↔ o = Some a ∧ t a = true.
Proof.
  unfold kept. destruct o as [b|]; [destruct (t b) eqn:Hb|]; split;
    try done; try (by intros [[= ->] ?]); try (by intros [[=] ?]).
  - intros [= ->]. done.
  - intros [[= ->] Ha]. congruence.
Qed.

(** X2: in the request parameters computed for a constructed adapter, a
    temperature or top_p entry is a non-zero float in [0,1] and a top_k
    entry is an integer from 1 to 500. *)
Theorem constructed_params_in_range (args self : Claude) :
  __init__ args = Ok self →
  (∀ v : pyval,
     computed_params self !! "temperature" = Some v →
     ∃ t : pyfloat, v = VFloat t ∧ float_nonzero t ∧ float_within t 1)
  ∧ (∀ v : pyval,
       computed_params self !! "top_p" = Some v →
       ∃ p : pyfloat, v = VFloat p ∧ float_nonzero p ∧ float_within p 1)
  ∧ (∀ v : pyval,
       computed_params self !! "top_k" = Some v →
       ∃ k : Z, v = VInt k ∧ (1 ≤ k ≤ 500)%Z).
Proof.
  intros Hinit. apply init_ok_inv in Hinit as (-> & _ & Ht & Hp & Hk).
  repeat split; intros v; rewrite lookup_computed_params; simpl.
  - destruct (kept float_truthy (temperature args)) as [t|] eqn:Hkept; [|done].
    intros [= <-]. apply kept_Some in Hkept as [Heq Htruthy].
    apply float_truthy_nonzero in Htruthy. rewrite Heq in Ht. simpl in Ht.
    exists t. by destruct Ht.
  - destruct (kept float_truthy (top_p args)) as [t|] eqn:Hkept; [|done].
    intros [= <-]. apply kept_Some in Hkept as [Heq Htruthy].
    apply float_truthy_nonzero in Htruthy. rewrite Heq in Hp. simpl in Hp.
    exists t. by destruct Hp.
  - destruct (kept int_truthy (top_k args)) as [k|] eqn:Hkept; [|done].
    intros [= <-]. apply kept_Some in Hkept as [Heq Htruthy].
    apply int_truthy_nonzero in Htruthy. rewrite Heq in Hk. simpl in Hk.
    exists k. split; [done|]. lia.
Qed.

Lemma constructed_params_in_range_witness :
  ∃ t : pyfloat,
    VFloat (FFin (1 # 2)) = VFloat t ∧ float_nonzero t ∧ float_within t 1.
Proof.
  destruct (constructed_params_in_range
              {| name := "n"; model := "anthropic.claude-3-haiku-20240307-v1:0";
                 max_tokens := 8192;
                 temperature := Some (FFin (1 # 2)); top_p := None;
                 top_k := Some 40%Z;
                 stop_sequences := None; anthropic_version := "v";
                 request_params := None; client_params := None |}
              {| name := "n"; model := "anthropic.claude-3-haiku-20240307-v1:0";
                 max_tokens := 8192;
                 temperature := Some (FFin (1 # 2)); top_p := None;
                 top_k := Some 40%Z;
                 stop_sequences := None; anthropic_version := "v";
                 request_params := None; client_params := None |})
    as (Htemperature & _ & _); [reflexivity|].
  apply Htemperature. reflexivity.
Defined.

(** ** The request body, key by key *)

Lemma request_body_lookup_system (self : Claude) (messages : list Message)
    (k : string) :
  get_request_body self messages !! k
  = match (if decide (k = "system")
           then kept truthy (last_system_content messages) else None) with
    | Some c => Some c
    | None => merged_body self messages !! k
    end.
Proof.
  rewrite get_request_body_unfold. cbv zeta. unfold kept.
  destruct (last_system_content messages) as [c|]; simpl.
  - destruct (truthy c); case_decide as Hk; try done.
    + subst k. by rewrite lookup_insert_eq.
    + by rewrite lookup_insert_ne.
  - by case_decide.
Qed.

(** X3: every entry of the request body, by priority: the [system] key
    holds the content of the last system message when that content is
    truthy; otherwise an entry of the extension mapping wins; otherwise
    [messages] holds the array built from the conversation and any other key
    holds its computed parameter, if there is one. *)
Theorem lookup_get_request_body (self : Claude) (messages : list Message)
    (k : string) :
  get_request_body self messages !! k
  = match (if decide (k = "system")
           then kept truthy (last_system_content messages) else None) with
    | Some c => Some c
    | None =>
        match default ∅ (request_params self) !! k with
        | Some v => Some v
        | None =>
            if decide (k = "messages")
            then Some (VList (role_content_pair <$> non_system messages))
            else computed_params self !! k
        end
    end.
Proof.
  rewrite request_body_lookup_system, lookup_merged_body, lookup_api_kwargs.
  destruct (if decide (k = "system") then _ else _); [done|].
  destruct (default ∅ (request_params self) !! k); [done|].
  case_decide as Hk; [|by destruct (computed_params self !! k)].
  subst k. by rewrite computed_params_no_messages.
Qed.

(** X4: whatever the configuration and the conversation, the request body
    has the keys [messages], [max_tokens] and [anthropic_version]. *)
Theorem get_request_body_required_keys (self : Claude)
    (messages : list Message) :
  is_Some (get_request_body self messages !! "messages")
  ∧ is_Some (get_request_body self messages !! "max_tokens")
  ∧ is_Some (get_request_body self messages !! "anthropic_version").
Proof.
  repeat split; rewrite request_body_lookup_system, lookup_merged_body,
    lookup_api_kwargs, lookup_computed_params; simpl;
    by destruct (default ∅ (request_params self) !! _).
Qed.

(** X5: the request body depends on the conversation only through the
    sequence of its non-system messages and the content of its last system
    message, where a missing system message counts as the content [None]:
    the position of system messages and the contents of all but the last
    one leave no trace. *)
Theorem get_request_body_congruence (self : Claude)
    (messages1 messages2 : list Message) :
  non_system messages1 = non_system messages2 →
  default VNone (last_system_content messages1)
  = default VNone (last_system_content messages2) →
  get_request_body self messages1 = get_request_body self messages2.
Proof.
  intros Hns Hlast. rewrite !get_request_body_unfold. cbv zeta.
  unfold merged_body. by rewrite Hns, Hlast.
Qed.

Lemma get_request_body_congruence_witness :
  get_request_body default_args
    [ mkMessage (VStr "system") (VStr "old");
      mkMessage (VStr "user") (VStr "U");
      mkMessage (VStr "system") (VStr "S");
      mkMessage (VStr "assistant") (VStr "A") ]
  = get_request_body default_args
      [ mkMessage (VStr "user") (VStr "U");
        mkMessage (VStr "assistant") (VStr "A");
        mkMessage (VStr "system") (VStr "S") ].
Proof.
  apply get_request_body_congruence; reflexivity.
Defined.

Lemma non_system_snoc (messages : list Message) (m : Message) :
  non_system (messages ++ [m])
  = (non_system messages ++ if is_system m then [] else [m])%list.
Proof.
  unfold non_system. rewrite List.filter_app. simpl.
  by destruct (is_system m).
Qed.

Lemma last_system_content_snoc (messages : list Message) (m : Message) :
  last_system_content (messages ++ [m])
  = if is_system m then Some (content m) else last_system_content messages.
Proof.
  unfold last_system_content. rewrite List.filter_app. simpl.
  destruct (is_system m).
  - by rewrite last_snoc.
  - by rewrite (right_id_L [] (++)).
Qed.

(** X6: appending a message that is not a system message appends its
    [{role, content}] pair to the built array and changes no other entry of
    the request body. *)
Theorem get_request_body_snoc (self : Claude) (messages : list Message)
    (m : Message) :
  is_system m = false →
  get_request_body self (messages ++ [m])
  = (if decide (default ∅ (request_params self) !! "messages" = None)
     then <["messages" :=
              VList ((role_content_pair <$> non_system messages)
                     ++ [role_content_pair m])%list]>
     else id) (get_request_body self messages).
Proof.
  intros Hm. apply map_eq. intros k.
  assert (∀ (d : gmap string pyval) v,
            (if decide (default ∅ (request_params self) !! "messages" = None)
             then <["messages" := v]> else id) d !! k
            = if decide (default ∅ (request_params self) !! "messages" = None)
              then (if decide (k = "messages") then Some v else d !! k)
              else d !! k) as ->.
  { intros d v. case_decide; [|done].
    case_decide as Hk; [subst k; by rewrite lookup_insert_eq|].
    by rewrite lookup_insert_ne. }
  rewrite !request_body_lookup_system, !lookup_merged_body, !lookup_api_kwargs.
  rewrite last_system_content_snoc, non_system_snoc, Hm, fmap_app. simpl.
  destruct (decide (k = "messages")) as [->|Hk].
  - simpl. rewrite computed_params_no_messages.
    destruct (default ∅ (request_params self) !! "messages") as [v|] eqn:Hext;
      by case_decide.
  - destruct (decide (k = "system")); by case_decide.
Qed.

Lemma get_request_body_snoc_witness :
  get_request_body default_args
    ([ mkMessage (VStr "system") (VStr "S");
       mkMessage (VStr "user") (VStr "U") ]
     ++ [ mkMessage (VStr "assistant") (VStr "A") ])
  = <["messages" :=
        VList [ role_content_pair (mkMessage (VStr "user") (VStr "U"));
                role_content_pair (mkMessage (VStr "assistant") (VStr "A")) ]]>
      (get_request_body default_args
         [ mkMessage (VStr "system") (VStr "S");
           mkMessage (VStr "user") (VStr "U") ]).
Proof.
  rewrite (get_request_body_snoc default_args
             [ mkMessage (VStr "system") (VStr "S");
               mkMessage (VStr "user") (VStr "U") ]
             (mkMessage (VStr "assistant") (VStr "A"))); reflexivity.
Defined.

(** ** Errors of response parsing *)

Lemma is_object_dec (v : pyval) : is_object v ∨ ¬ is_object v.
Proof.
  destruct v; try (right; intros [d' [=]]; done). left. by eexists.
Qed.

Lemma texts_of_cases (l : list pyval) :
  (Forall is_object l ∧ texts_of l = Ok (text_or_none <$> l))
  ∨ (Exists (λ c, ¬ is_object c) l ∧ texts_of l = Raise AttributeError).
Proof.
  unfold texts_of. induction l as [|c l IH]; [left; by split|].
  destruct (is_object_dec c) as [[d ->]|Hc].
  - destruct IH as [[Hall Hok]|[Hex Hraise]].
    + left. split; [constructor; [by eexists|done]|].
      simpl. by rewrite Hok.
    + right. split; [by apply Exists_cons_tl|]. simpl. by rewrite Hraise.
  - right. split; [by apply Exists_cons_hd|].
    destruct c; simpl; try done. destruct Hc. by eexists.
Qed.

Lemma str_items_cases (vs : list pyval) :
  (∃ ts : list string, vs = VStr <$> ts ∧ str_items vs = Ok ts)
  ∨ (Exists not_str vs ∧ str_items vs = Raise TypeError).
Proof.
  induction vs as [|v vs IH]; [left; by exists []|].
  destruct v as [| | | |s| |];
    try (right; split; [by apply Exists_cons_hd; intros t|done]).
  destruct IH as [(ts & -> & Hok)|[Hex Hraise]].
  - left. exists (s :: ts). split; [done|]. cbn [str_items]. by rewrite Hok.
  - right. split; [by apply Exists_cons_tl|]. cbn [str_items]. by rewrite Hraise.
Qed.

Lemma not_str_fmap_VStr (ts : list string) : ¬ Exists not_str (VStr <$> ts).
Proof.
  induction ts as [|t ts IH]; rewrite ?fmap_cons; [by intros ?%Exists_nil|].
  intros [Hhd|Htl]%Exists_cons; [by destruct (Hhd t)|done].
Qed.

Lemma Exists_not_str_texts (l : list pyval) :
  Forall is_object l →
  Exists not_str (text_or_none <$> l) ↔ Exists text_not_str l.
Proof.
  induction 1 as [|c l [d ->] _ IH]; rewrite ?fmap_cons;
    [by rewrite fmap_nil, !Exists_nil|].
  rewrite !Exists_cons, IH.
  assert (not_str (text_or_none (VDict d)) ↔ text_not_str (VDict d)) as ->;
    [|done].
  unfold not_str, text_not_str, text_or_none, dict_get. split.
  - intros Hns. exists d. split; [done|]. intros t Ht.
    specialize (Hns t). by rewrite Ht in Hns.
  - intros (d' & [= <-] & Hns) t Ht.
    destruct (d !! "text") as [v|] eqn:Hd; simpl in Ht; [|done].
    subst v. by destruct (Hns t).
Qed.

Lemma Forall_object_not_Exists (l : list pyval) :
  Forall is_object l → ¬ Exists (λ c, ¬ is_object c) l.
Proof.
  induction 1 as [|c l Hc _ IH]; [by intros ?%Exists_nil|].
  by intros [?|?]%Exists_cons.
Qed.

(** The result of the list branch: the comprehension, then the join. *)
Lemma join_texts_raise (l : list pyval) (e : exn) :
  (texts_of l ≫= py_join LF) = Raise e
  ↔ (e = AttributeError ∧ Exists (λ c, ¬ is_object c) l)
    ∨ (e = TypeError ∧ Forall is_object l ∧ Exists text_not_str l).
Proof.
  destruct (texts_of_cases l) as [[Hall Hok]|[Hex Hraise]].
  - rewrite Hok. simpl. unfold py_join.
    destruct (str_items_cases (text_or_none <$> l))
      as [(ts & Hts & Hitems)|[Hns Hitems]]; rewrite Hitems; simpl.
    + split; [done|]. intros [[_ Hex]|(_ & _ & Hex)].
      * by apply Forall_object_not_Exists in Hex.
      * apply Exists_not_str_texts in Hex; [|done].
        rewrite Hts in Hex. by apply not_str_fmap_VStr in Hex.
    + split.
      * intros [= <-]. right. split; [done|]. split; [done|].
        by apply Exists_not_str_texts.
      * intros [[_ Hex]|(-> & _ & _)]; [|done].
        by apply Forall_object_not_Exists in Hex.
  - rewrite Hraise. simpl. split.
    + intros [= <-]. by left.
    + intros [[-> _]|(_ & Hall & _)]; [done|].
      by apply Forall_object_not_Exists in Hex.
Qed.

(** X7: parsing a complete response raises exactly when the payload has
    type ["message"] and its [content] is a list with an offending element:
    [AttributeError] when some element is not an object, [TypeError] when
    all are objects and one has no string under [text].  Every other
    payload is parsed to a message. *)
Theorem parse_response_message_raises_iff (self : Claude)
    (response : gmap string pyval) (e : exn) :
  parse_response_message self response = Raise e
  ↔ response !! "type" = Some (VStr "message")
    ∧ ∃ l : list pyval,
        response !! "content" = Some (VList l)
        ∧ ((e = AttributeError ∧ Exists (λ c, ¬ is_object c) l)
           ∨ (e = TypeError ∧ Forall is_object l ∧ Exists text_not_str l)).
Proof.
  unfold parse_response_message.
  destruct (py_eq_str (dict_get response "type") "message") eqn:Htype.
  - apply type_is_message in Htype. cbv zeta. unfold dict_get.
    destruct (response !! "content") as [v|] eqn:Hc; simpl.
    + destruct v as [| | | | |l|d];
        try (split; [by repeat case_match | by intros (_ & l' & [=] & _)]).
      destruct l as [|c l].
      * simpl. split; [done|]. intros (_ & l' & [= <-] & Hcases).
        destruct Hcases as [[_ Hex]|(_ & _ & Hex)]; by apply Exists_nil in Hex.
      * simpl truthy. cbv iota.
        destruct (texts_of (c :: l) ≫= py_join LF) as [v|e'] eqn:Hjoin.
        -- simpl. split; [done|]. intros (_ & l' & [= <-] & Hcases).
           apply join_texts_raise in Hcases. congruence.
        -- simpl. split.
           ++ intros [= <-]. split; [done|]. exists (c :: l). split; [done|].
              by apply join_texts_raise.
           ++ intros (_ & l' & [= <-] & Hcases).
              apply join_texts_raise in Hcases. congruence.
    + split; [done|]. by intros (_ & l & [=] & _).
  - split; [done|]. intros [Hmsg _]. apply type_is_message in Hmsg. congruence.
Qed.

Lemma parse_response_message_raises_iff_witness :
  parse_response_message default_args
    {[ "type" := VStr "message";
       "content" := VList [ VDict {[ "text" := VStr "a" ]}; VInt 3 ] ]}
  = Raise AttributeError.
Proof.
  apply parse_response_message_raises_iff. split; [reflexivity|].
  exists [ VDict {[ "text" := VStr "a" ]}; VInt 3 ]. split; [reflexivity|].
  left. split; [reflexivity|]. apply Exists_cons_tl, Exists_cons_hd.
  intros [d Hd]. discriminate Hd.
Defined.

(** X8: parsing a streaming fragment raises exactly when the fragment has a
    [delta] key whose value is not an object, a null [delta] included, and
    the error is then [AttributeError]. *)
Theorem parse_response_delta_raises_iff (self : Claude)
    (response : gmap string pyval) (e : exn) :
  parse_response_delta self response = Raise e
  ↔ e = AttributeError
    ∧ ∃ v : pyval, response !! "delta" = Some v ∧ ¬ is_object v.
Proof.
  unfold parse_response_delta, dict_contains, dict_get_default.
  destruct (response !! "delta") as [v|]; simpl.
  - destruct (is_object_dec v) as [[d ->]|Hv].
    + simpl. split; [done|]. intros (_ & v & [= <-] & Hv). destruct Hv.
      by eexists.
    + assert (py_get v "text" = Raise AttributeError) as ->.
      { destruct v; try done. destruct Hv. by eexists. }
      split; [intros [= <-]; eauto | by intros [-> _]].
  - split; [done|]. by intros (_ & v & [=] & _).
Qed.

Lemma parse_response_delta_raises_iff_witness :
  parse_response_delta default_args
    {[ "delta" := VNone; "completion" := VStr "full" ]}
  = Raise AttributeError.
Proof.
  apply parse_response_delta_raises_iff. split; [reflexivity|].
  exists VNone. split; [reflexivity|]. intros [d Hd]. discriminate Hd.
Defined.

(** X9: a fragment that has a [delta] key is parsed without regard to its
    [completion] field. *)
Theorem parse_response_delta_precedence (self : Claude)
    (response : gmap string pyval) (v c : pyval) :
  response !! "delta" = Some v →
  parse_response_delta self (<["completion" := c]> response)
  = parse_response_delta self response
  ∧ parse_response_delta self (delete "completion" response)
    = parse_response_delta self response.
Proof.
  intros Hv. unfold parse_response_delta, dict_contains, dict_get_default.
  rewrite lookup_insert_ne, lookup_delete_ne by done. by rewrite Hv.
Qed.

Lemma parse_response_delta_precedence_witness :
  parse_response_delta default_args
    (<["completion" := VStr "full"]>
       {[ "delta" := VDict {[ "text" := VStr "chunk" ]} ]})
  = Ok (VStr "chunk").
Proof.
  destruct (parse_response_delta_precedence default_args
              {[ "delta" := VDict {[ "text" := VStr "chunk" ]} ]}
              (VDict {[ "text" := VStr "chunk" ]}) (VStr "full"))
    as [Hinsert _]; [reflexivity|].
  rewrite Hinsert. reflexivity.
Defined.

(** X10: a payload that has neither the type ["message"] nor a [delta] key
    is read the same way by both parsers: the text returned for it as a
    streaming fragment is the content of the message returned for it as a
    complete response, whose role is ["assistant"]. *)
Theorem parse_legacy_payload_agree (self : Claude)
    (response : gmap string pyval) :
  response !! "type" ≠ Some (VStr "message") →
  response !! "delta" = None →
  ∃ m : Message,
    parse_response_message self response = Ok m
    ∧ role m = VStr "assistant"
    ∧ parse_response_delta self response = Ok (content m).
Proof.
  intros Htype Hdelta.
  exists (mkMessage (VStr "assistant") (dict_get response "completion")).
  split; [|split; [done|]].
  - unfold parse_response_message.
    destruct (py_eq_str (dict_get response "type") "message") eqn:Heq; [|done].
    by apply type_is_message in Heq.
  - unfold parse_response_delta, dict_contains. by rewrite Hdelta.
Qed.

Lemma parse_legacy_payload_agree_witness :
  ∃ m : Message,
    parse_response_message default_args {[ "completion" := VStr "hello" ]}
    = Ok m
    ∧ role m = VStr "assistant"
    ∧ parse_response_delta default_args {[ "completion" := VStr "hello" ]}
      = Ok (content m).
Proof.
  apply parse_legacy_payload_agree; [discriminate | reflexivity].
Defined.

(** X11: the [{role, content}] pair sent for a message whose content is a
    string, tagged with the type ["message"], is parsed back to that
    message. *)
Theorem parse_response_message_round_trip (self : Claude) (m : Message)
    (s : string) :
  content m = VStr s →
  parse_response_message self
    (<["type" := VStr "message"]>
       {[ "role" := role m; "content" := content m ]})
  = Ok m.
Proof.
  intros Hs. destruct m as [r c]. simpl in *. subst c.
  unfold parse_response_message, dict_get.
  rewrite lookup_insert_eq. simpl.
  rewrite !lookup_insert_ne, lookup_insert_eq by done.
  rewrite !lookup_insert_ne, lookup_singleton_eq by done. simpl.
  by destruct s.
Qed.

Lemma parse_response_message_round_trip_witness :
  parse_response_message default_args
    (<["type" := VStr "message"]>
       {[ "role" := VStr "assistant"; "content" := VStr "hi" ]})
  = Ok (mkMessage (VStr "assistant") (VStr "hi")).
Proof.
  apply (parse_response_message_round_trip default_args
           (mkMessage (VStr "assistant") (VStr "hi")) "hi").
  reflexivity.
Defined.

(** ** [to_dict] *)

Lemma lookup_to_dict (super_to_dict : gmap string pyval) (self : Claude)
    (k : string) :
  to_dict super_to_dict self !! k
  = if decide (k = "stop_sequences")
    then Some (opt_val (λ l, VList (VStr <$> l)) (stop_sequences self))
    else if decide (k = "top_k") then Some (opt_val VInt (top_k self))
    else if decide (k = "top_p") then Some (opt_val VFloat (top_p self))
    else if decide (k = "temperature")
    then Some (opt_val VFloat (temperature self))
    else if decide (k = "max_tokens") then Some (VInt (max_tokens self))
    else super_to_dict !! k.
Proof.
  unfold to_dict. rewrite !lookup_insert.
  repeat case_decide; simplify_eq; done.
Qed.

(** X13: whatever the request parameters computed from the configuration
    hold under a key other than [anthropic_version], [to_dict] reports the
    same value under that key; [to_dict] in addition reports, as [None], zero
    or the empty list, the attributes that the request parameters leave
    out. *)
Theorem to_dict_covers_computed_params (super_to_dict : gmap string pyval)
    (self : Claude) (k : string) (v : pyval) :
  k ≠ "anthropic_version" →
  computed_params self !! k = Some v →
  to_dict super_to_dict self !! k = Some v.
Proof.
  intros Hk. rewrite lookup_computed_params, lookup_to_dict.
  repeat case_decide; simplify_eq; try done;
    match goal with
    | |- context [kept ?t ?o] =>
        destruct (kept t o) as [a|] eqn:Hkept; [|done];
        apply kept_Some in Hkept as [-> _]; done
    end.
Qed.

Lemma to_dict_covers_computed_params_witness :
  to_dict ∅
    {| name := "n"; model := "anthropic.claude-3-haiku-20240307-v1:0";
       max_tokens := 8192; temperature := Some (FFin (1 # 2));
       top_p := None; top_k := None; stop_sequences := None;
       anthropic_version := "v"; request_params := None;
       client_params := None |} !! "temperature"
  = Some (VFloat (FFin (1 # 2))).
Proof.
  apply to_dict_covers_computed_params; [discriminate | reflexivity].
Defined.
